(** * FinanceStocks: the quote gateway (pages/api/stock.ts) and the
    dashboard page (its [Home] component) as a shallow embedding.

    JavaScript numbers are IEEE-754 doubles, modelled by Rocq's primitive
    [float]s: [-], [/] and [*] are the primitive operations, and the
    conversions between text and numbers ([StringToNumber],
    [Number::toString], [toFixed]) are written out below. Strings are
    sequences of code units below 128 (ASCII). *)

From Stdlib Require Import Ascii Floats.
From stdpp Require Import base list strings sorting.

Set Warnings "-register-all".
Open Scope string_scope.

(* ===================================================================== *)
(** ** JavaScript values as produced by [JSON.parse] *)
(* ===================================================================== *)

Module Js.

(** JavaScript numbers. *)
Definition jsnum := float.

(** A parsed JSON value. Objects keep their members in source order; a
    value produced by [JSON.parse] has distinct keys. *)
Inductive json :=
| JNull
| JBool (b : bool)
| JNum (x : jsnum)
| JStr (s : string)
| JArr (l : list json)
| JObj (kvs : list (string * json)).

(** A JavaScript value as read from a property: [undefined] or a JSON
    value. *)
Inductive jsv :=
| Undef
| Val (j : json).

(** The JSON value of a property read, [undefined] as [null] (as
    [JSON.stringify] writes it inside [{error: ...}]). *)
Definition value_of (v : jsv) : json := match v with Val j => j | Undef => JNull end.

(** Truthiness ([if (x)], [!x], [x || y]): +0, -0 and NaN are falsy. *)
Definition truthy (v : jsv) : bool :=
  match v with
  | Undef => false
  | Val JNull => false
  | Val (JBool b) => b
  | Val (JNum x) => negb (PrimFloat.is_nan x || PrimFloat.is_zero x)
  | Val (JStr s) => negb (String.eqb s "")
  | Val (JArr _) => true
  | Val (JObj _) => true
  end.

(** Decimal rendering of a non-negative integer. *)
Fixpoint digits_go (fuel : nat) (n : Z) (acc : string) : string :=
  match fuel with
  | O => acc
  | S f =>
      let acc' := String (ascii_of_nat (48 + Z.to_nat (n mod 10))) acc in
      if (n <? 10)%Z then acc' else digits_go f (n / 10)%Z acc'
  end.

Definition Z_to_dec (n : Z) : string :=
  digits_go (S (Z.to_nat (Z.log2 n))) n "".

(** Array indices as property keys: "0", "1", ... *)
Definition index_keys (n : nat) : list string :=
  map (fun i => Z_to_dec (Z.of_nat i)) (seq 0 n).

Fixpoint chars (s : string) : list json :=
  match s with
  | EmptyString => []
  | String c r => JStr (String c EmptyString) :: chars r
  end.

(** The own enumerable properties of a value, in key order. *)
Definition own (j : json) : list (string * json) :=
  match j with
  | JObj kvs => kvs
  | JArr l => zip (index_keys (length l)) l
  | JStr s => zip (index_keys (String.length s)) (chars s)
  | _ => []
  end.

(** [Object.keys(j)] for a non-null value. *)
Definition keys (j : json) : list string := map fst (own j).

Fixpoint assoc (k : string) (kvs : list (string * json)) : jsv :=
  match kvs with
  | [] => Undef
  | (k', v) :: r => if String.eqb k k' then Val v else assoc k r
  end.

(** [j[k]] on a non-null value (the keys read by the program are not
    inherited properties). *)
Definition index (j : json) (k : string) : jsv := assoc k (own j).

(** [v[k]]: reading a property of [undefined] or [null] throws a
    [TypeError], modelled by [None]. *)
Definition get (v : jsv) (k : string) : option jsv :=
  match v with
  | Undef => None
  | Val JNull => None
  | Val j => Some (index j k)
  end.

(** *** From text to numbers *)

(** [n / d] rounded to the nearest integer, ties to even ([n >= 0],
    [d > 0]). *)
Definition round_half_even (n d : Z) : Z :=
  let q := (n / d)%Z in
  match Z.compare (2 * (n mod d)) d with
  | Lt => q
  | Gt => (q + 1)%Z
  | Eq => if Z.even q then q else (q + 1)%Z
  end.

(** The double nearest to [a / b] ([a >= 0], [b > 0]), ties to even:
    [e] is the exponent of the last bit of the significand, that is
    [2 ^ 52 <= a / (b * 2 ^ e) < 2 ^ 53], raised to -1074 for subnormal
    values; the significand is [a / (b * 2 ^ e)] rounded. A value too large
    for a double becomes +Infinity. *)
Definition nearest_double (a b : Z) : jsnum :=
  if (a <=? 0)%Z then 0%float
  else
    let num (e : Z) := (a * 2 ^ Z.max 0 (- e))%Z in
    let den (e : Z) := (b * 2 ^ Z.max 0 e)%Z in
    let l := (Z.log2 a - Z.log2 b - 52)%Z in
    let e := if (num l <? 2 ^ 52 * den l)%Z then (l - 1)%Z else l in
    let e := Z.max e (-1074) in
    let m := round_half_even (num e) (den e) in
    Z.ldexp (of_uint63 (Uint63.of_Z m)) e.

(** The double nearest to [s * 10 ^ e]. *)
Definition decimal_value (s e : Z) : jsnum :=
  if (0 <=? e)%Z then nearest_double (s * 10 ^ e) 1
  else nearest_double s (10 ^ (- e)).

(** White space removed by [StringToNumber] (the code units below 128 of
    [WhiteSpace] and [LineTerminator]). *)
Definition is_ws (c : ascii) : bool :=
  match nat_of_ascii c with
  | 9 | 10 | 11 | 12 | 13 | 32 => true
  | _ => false
  end.

Fixpoint drop_ws (l : list ascii) : list ascii :=
  match l with
  | c :: r => if is_ws c then drop_ws r else l
  | [] => []
  end.

Definition trim (s : string) : string :=
  Strings.String.string_of_list_ascii
    (List.rev (drop_ws (List.rev (drop_ws (Strings.String.list_ascii_of_string s))))).

(** The value of a digit in base [radix] (2, 8, 10 or 16): 0-9, then the
    letters a-f in either case. *)
Definition digit_in (radix : Z) (c : ascii) : option Z :=
  let n := nat_of_ascii c in
  let v := if ((48 <=? n) && (n <=? 57))%nat then Some (Z.of_nat n - 48)%Z
           else if ((97 <=? n) && (n <=? 122))%nat then Some (Z.of_nat n - 87)%Z
           else if ((65 <=? n) && (n <=? 90))%nat then Some (Z.of_nat n - 55)%Z
           else None in
  match v with
  | Some d => if (d <? radix)%Z then Some d else None
  | None => None
  end.

Definition digit_val (c : ascii) : option Z := digit_in 10 c.

(** Reads a run of decimal digits: value (appended to [acc]), number of
    digits (added to [cnt]), rest. *)
Fixpoint take_digits (s : string) (acc : Z) (cnt : nat) : Z * nat * string :=
  match s with
  | String c r =>
      match digit_val c with
      | Some d => take_digits r (acc * 10 + d)%Z (S cnt)
      | None => (acc, cnt, s)
      end
  | EmptyString => (acc, cnt, s)
  end.

(** An optional [ExponentPart] ending the literal: [e] or [E], an optional
    sign and at least one digit. *)
Definition exponent_part (s : string) : option Z :=
  match s with
  | EmptyString => Some 0%Z
  | String c r =>
      if (c =? "e")%char || (c =? "E")%char then
        let '(sg, r') := match r with
                         | String "+" r' => (1%Z, r')
                         | String "-" r' => ((-1)%Z, r')
                         | _ => (1%Z, r)
                         end in
        let '(v, n, rest) := take_digits r' 0 0 in
        match rest with
        | EmptyString => if (n =? 0)%nat then None else Some (sg * v)%Z
        | _ => None
        end
      else None
  end.

(** [StrUnsignedDecimalLiteral] other than [Infinity]: [ddd], [ddd.ddd],
    [.ddd] or [ddd.], with at least one digit, then an optional exponent.
    Its value is [s * 10 ^ e] with the digits read as the integer [s]. *)
Definition unsigned_decimal (s : string) : option (Z * Z) :=
  let '(ip, ni, r) := take_digits s 0 0 in
  let '(m, nf, r') := match r with
                      | String "." r1 =>
                          let '(m, nt, r2) := take_digits r1 ip ni in (m, (nt - ni)%nat, r2)
                      | _ => (ip, 0%nat, r)
                      end in
  if (ni + nf =? 0)%nat then None
  else match exponent_part r' with
       | Some x => Some (m, (x - Z.of_nat nf)%Z)
       | None => None
       end.

Definition unsigned_number (s : string) : jsnum :=
  if String.eqb s "Infinity" then PrimFloat.infinity
  else match unsigned_decimal s with
       | Some (m, e) => decimal_value m e
       | None => PrimFloat.nan
       end.

(** The digits of a [NonDecimalIntegerLiteral] after its prefix. *)
Fixpoint radix_digits (radix : Z) (s : string) (acc : Z) (n : nat) : option Z :=
  match s with
  | EmptyString => if (n =? 0)%nat then None else Some acc
  | String c r =>
      match digit_in radix c with
      | Some d => radix_digits radix r (acc * radix + d)%Z (S n)
      | None => None
      end
  end.

(** The base a prefix [0x], [0o] or [0b] (either case) announces. *)
Definition radix_of (c : ascii) : option Z :=
  if (c =? "x")%char || (c =? "X")%char then Some 16%Z
  else if (c =? "o")%char || (c =? "O")%char then Some 8%Z
  else if (c =? "b")%char || (c =? "B")%char then Some 2%Z
  else None.

(** [StringToNumber]: surrounding white space is ignored and the empty
    string is 0; then an unsigned [0x], [0o] or [0b] integer, or an
    optionally signed decimal literal or [Infinity]; anything else is NaN.
    The value is rounded to the nearest double. *)
Definition string_to_number (s : string) : jsnum :=
  let t := trim s in
  match t with
  | EmptyString => 0%float
  | String "0" (String c r) =>
      match radix_of c with
      | Some radix =>
          match radix_digits radix r 0 0 with
          | Some v => nearest_double v 1
          | None => PrimFloat.nan
          end
      | None => unsigned_number t
      end
  | String "-" r => (- unsigned_number r)%float
  | String "+" r => unsigned_number r
  | _ => unsigned_number t
  end.

(** *** [ToNumber] *)

(** [ToString] of an object or array throws when the value has an own
    "toString" property: it is not callable. *)
Fixpoint to_string_throws (j : json) : bool :=
  match j with
  | JObj kvs => match assoc "toString" kvs with Val _ => true | Undef => false end
  | JArr l => existsb to_string_throws l
  | _ => false
  end.

(** [ToNumber(ToString(j))] for [j] an element of an array being joined
    ([null] joins as the empty string) or for an object or array itself;
    [None] when [ToString] throws. An object without its own "toString"
    is "[object Object]"; an array is [join(",")] of its elements: empty
    for no element, the text of its element for one, and a text with a
    comma (NaN) for two or more. *)
Fixpoint text_number (j : json) : option jsnum :=
  match j with
  | JNull => Some 0%float
  | JBool _ => Some PrimFloat.nan
  | JNum x => Some (if PrimFloat.is_zero x then 0%float else x)
  | JStr s => Some (string_to_number s)
  | JArr [] => Some 0%float
  | JArr [e] => text_number e
  | JArr l => if existsb to_string_throws l then None else Some PrimFloat.nan
  | JObj kvs => match assoc "toString" kvs with
                | Val _ => None
                | Undef => Some PrimFloat.nan
                end
  end.

(** Unary [+v] on a property value; [None] when it throws. Objects and
    arrays go through [ToPrimitive] with hint number: their [valueOf]
    (inherited unless they have an own one, which is not callable and
    skipped) returns the object itself, so [toString] is used. *)
Definition to_number (v : jsv) : option jsnum :=
  match v with
  | Undef => Some PrimFloat.nan
  | Val JNull => Some 0%float
  | Val (JBool b) => Some (if b then 1%float else 0%float)
  | Val (JNum x) => Some x
  | Val (JStr s) => Some (string_to_number s)
  | Val (JArr l) => text_number (JArr l)
  | Val (JObj kvs) => text_number (JObj kvs)
  end.

End Js.

(* ===================================================================== *)
(** ** Arithmetic on JavaScript numbers and their printing *)
(* ===================================================================== *)

Module Num.
Import Js.



Fixpoint zeros (n : nat) : string :=
  match n with O => "" | S k => String "0" (zeros k) end.

(** The exact magnitude of a finite double as [num / den], [den] a power
    of two. *)
Definition exact_value (x : jsnum) : Z * Z :=
  match Prim2SF x with
  | S754_finite _ m e =>
      if (0 <=? e)%Z then (Z.pos m * 2 ^ e, 1)%Z else (Z.pos m, 2 ^ (- e))%Z
  | _ => (0, 1)%Z
  end.

(** The least [j >= j0] with [num * 10 ^ j >= den]. *)
Fixpoint frac_exp (fuel : nat) (num den j : Z) : Z :=
  match fuel with
  | O => j
  | S f => if (den <=? num * 10 ^ j)%Z then j else frac_exp f num den (j + 1)
  end.

(** The [n] with [10 ^ (n - 1) <= num / den < 10 ^ n], for a positive
    value. *)
Definition decimal_exponent (num den : Z) : Z :=
  let ip := (num / den)%Z in
  if (0 <? ip)%Z then Z.of_nat (String.length (Z_to_dec ip))
  else (1 - frac_exp 400 num den 1)%Z.

(** The [k]-digit candidates of [Number::toString] for a positive finite
    [x] of exponent [n]: [s1 * 10 ^ (n - k) <= x < s2 * 10 ^ (n - k)] with
    [s2 = s1 + 1]. Returns the [s] kept and its exponent, if one of them
    reads back as [x]: the closer one, the even one on a tie. [s2 = 10 ^ k]
    is written with [k] digits and exponent [n + 1]. *)
Definition digits_at (x : jsnum) (num den n k : Z) : option (Z * Z) :=
  let e := (n - k)%Z in
  let p := if (0 <=? e)%Z then num else (num * 10 ^ (- e))%Z in
  let q := if (0 <=? e)%Z then (den * 10 ^ e)%Z else den in
  let s1 := (p / q)%Z in
  let s2 := (s1 + 1)%Z in
  let r1 := (p - s1 * q)%Z in
  let r2 := (q - r1)%Z in
  let ok1 := PrimFloat.eqb (decimal_value s1 e) x in
  let ok2 := PrimFloat.eqb (decimal_value s2 e) x in
  let s := match ok1, ok2 with
           | true, true =>
               if (r1 <? r2)%Z then Some s1 else if (r2 <? r1)%Z then Some s2
               else if Z.even s1 then Some s1 else Some s2
           | true, false => Some s1
           | false, true => Some s2
           | false, false => None
           end in
  match s with
  | Some s => if (s =? 10 ^ k)%Z then Some (10 ^ (k - 1), (n + 1))%Z else Some (s, n)
  | None => None
  end.

(** The digits [s], their number [k] and the exponent [n] chosen by
    [Number::toString] for a positive finite [x]: [k] as small as
    possible. Seventeen digits always identify a double, so the search
    ends by [k = 17]. *)
Definition shortest (x : jsnum) : Z * Z * Z :=
  let '(num, den) := exact_value x in
  let n := decimal_exponent num den in
  let fix go (fuel : nat) (k : Z) : Z * Z * Z :=
    match fuel with
    | O => (0, 1, 1)%Z
    | S f => match digits_at x num den n k with
             | Some (s, n') => (s, k, n')
             | None => go f (k + 1)%Z
             end
    end in
  go 17 1%Z.

(** The layout of [Number::toString] for digits [ds] ([k] of them) and
    exponent [n]. *)
Definition layout (ds : string) (k n : Z) : string :=
  if (k <=? n)%Z && (n <=? 21)%Z then ds ++ zeros (Z.to_nat (n - k))
  else if (0 <? n)%Z && (n <=? 21)%Z then
    Strings.String.substring 0 (Z.to_nat n) ds ++ "." ++
    Strings.String.substring (Z.to_nat n) (Z.to_nat (k - n)) ds
  else if (-6 <? n)%Z && (n <=? 0)%Z then "0." ++ zeros (Z.to_nat (- n)) ++ ds
  else
    let es := (if (n - 1 <? 0)%Z then "-" else "+") ++ Z_to_dec (Z.abs (n - 1)) in
    if (k =? 1)%Z then ds ++ "e" ++ es
    else Strings.String.substring 0 1 ds ++ "." ++
         Strings.String.substring 1 (Z.to_nat (k - 1)) ds ++ "e" ++ es.

(** [Number::toString(x)] in radix 10. *)
Definition number_to_string (x : jsnum) : string :=
  if PrimFloat.is_nan x then "NaN"
  else if PrimFloat.is_zero x then "0"
  else
    let sign := if (x <? 0)%float then "-" else "" in
    let a := PrimFloat.abs x in
    if PrimFloat.is_infinity a then sign ++ "Infinity"
    else let '(s, k, n) := shortest a in sign ++ layout (Z_to_dec s) k n.


End Num.

(* ===================================================================== *)
(** ** Quote gateway: pages/api/stock.ts, [handler] *)
(* ===================================================================== *)

Module Gateway.
Import Js.

(** [req.query.symbol]: absent, one value, or a repeated parameter. *)
Inductive query :=
| QMissing
| QStr (s : string)
| QArr (l : list string).

(** The outcome of [await fetch(url)] and of reading its body:
    [UNetFail] when [fetch] rejects; otherwise the status, the body text
    ([response.text()]) and the body as [response.json()] parses it
    ([None] when parsing throws). *)
Inductive upstream :=
| UNetFail
| UResp (status : Z) (text : string) (body : option json).

Record reply := { status : Z; body : json }.

Definition err (code : Z) (msg : json) : reply :=
  {| status := code; body := JObj [("error", msg)] |}.

Definition ok (code : Z) : bool := (200 <=? code)%Z && (code <=? 299)%Z.

Definition upstream_url (symbol key : string) : string :=
  "https://www.alphavantage.co/query?function=TIME_SERIES_DAILY&symbol="
    ++ symbol ++ "&apikey=" ++ key.

(** The [try] block once the request has been issued. *)
Definition classify (up : upstream) : reply :=
  match up with
  | UNetFail => err 500 (JStr "Failed to fetch data")
  | UResp st text body =>
      if negb (ok st) then err st (JStr ("Alpha Vantage error: " ++ text))
      else match body with
           | None => err 500 (JStr "Failed to fetch data")
           | Some data =>
               match get (Val data) "Error Message" with
               | None => err 500 (JStr "Failed to fetch data")
               | Some em =>
                   if truthy em then
                     err 500 (value_of em)
                   else
                     match get (Val data) "Note" with
                     | None => err 500 (JStr "Failed to fetch data")
                     | Some nt =>
                         if truthy nt then
                           err 429 (value_of nt)
                         else {| status := 200; body := data |}
                     end
               end
           end
  end.

(** [handler]: the reply and the list of upstream URLs requested;
    [upstream_of] gives the upstream answer for the URL. *)
Definition handler (q : query) (api_key : option string)
    (upstream_of : string -> upstream) : reply * list string :=
  match q with
  | QStr symbol =>
      if String.eqb symbol "" then (err 400 (JStr "Missing symbol parameter"), [])
      else match api_key with
           | Some key =>
               if String.eqb key "" then
                 (err 500 (JStr "API key not set in environment variables"), [])
               else let url := upstream_url symbol key in
                    (classify (upstream_of url), [url])
           | None => (err 500 (JStr "API key not set in environment variables"), [])
           end
  | _ => (err 400 (JStr "Missing symbol parameter"), [])
  end.

End Gateway.

(* ===================================================================== *)
(** ** Dashboard controller: the [Home] page component *)
(* ===================================================================== *)

Module Dashboard.
Import Js.

(** One entry of [multiDayData]. *)
Module Bar.
Record t := {
  date : string;
  open : jsnum;
  high : jsnum;
  low : jsnum;
  close : jsnum;
  volume : jsnum
}.
End Bar.

(** [interface StockData] *)
Record StockData := {
  date : string;
  open : jsnum;
  high : jsnum;
  low : jsnum;
  close : jsnum;
  volume : jsnum;
  prevClose : option jsnum
}.

(** The component state. [error] holds whatever [setError] received. *)
Record ui := {
  symbol : string;
  stockData : option StockData;
  error : json;
  loading : bool;
  history : list string;
  favorites : list string;
  multiDayData : list Bar.t
}.

(** [addToHistory]: the functional update passed to [setHistory]. *)
Definition addToHistory (sym : string) (prev : list string) : list string :=
  take 10 (sym :: List.filter (fun h => negb (String.eqb h sym)) prev).

(** [toggleFavorite], on the [favorites] of the current render. *)
Definition toggleFavorite (sym : string) (favs : list string) : list string :=
  if existsb (String.eqb sym) favs
  then List.filter (fun f => negb (String.eqb f sym)) favs
  else favs ++ [sym].

(** The state updates and the network request issued by [fetchStock], in
    program order. *)
Inductive act :=
| SetError (e : json)
| SetStockData (o : option StockData)
| SetMultiDayData (l : list Bar.t)
| SetLoading (b : bool)
| AddToHistory (sym : string)
| Request (url : string).

Definition step (st : ui) (a : act) : ui :=
  let '{| symbol := sy; stockData := sd; error := e; loading := lo;
          history := h; favorites := f; multiDayData := md |} := st in
  match a with
  | SetError e' => Build_ui sy sd e' lo h f md
  | SetStockData sd' => Build_ui sy sd' e lo h f md
  | SetMultiDayData md' => Build_ui sy sd e lo h f md'
  | SetLoading lo' => Build_ui sy sd e lo' h f md
  | AddToHistory s => Build_ui sy sd e lo (addToHistory s h) f md
  | Request _ => st
  end.

Definition run (st : ui) (acts : list act) : ui := fold_left step acts st.

(** [Object.keys(timeSeries).sort().reverse()] *)
Definition sorted_dates (ts : json) : list string :=
  reverse (merge_sort String.le (keys ts)).

(** The [map] callback building one bar of [multiDays]; [None] when it
    throws. *)
Definition day_of (ts : json) (d : string) : option Bar.t :=
  let e := index ts d in
  o ← get e "1. open"; o ← to_number o; h ← get e "2. high"; h ← to_number h;
  l ← get e "3. low"; l ← to_number l; c ← get e "4. close"; c ← to_number c;
  v ← get e "5. volume"; v ← to_number v;
  Some {| Bar.date := d; Bar.open := o; Bar.high := h; Bar.low := l;
          Bar.close := c; Bar.volume := v |}.

(** The body of the success branch, from the computation of [dates] to
    the object passed to [setStockData]; [None] when it throws (a property
    read on [undefined] or a unary [+] that throws). *)
Definition build (ts : json) : option (StockData * list Bar.t) :=
  let dates := sorted_dates ts in
  let latestDate := default "undefined" (head dates) in
  let latestData := index ts latestDate in
  multiDays ← mapM (day_of ts) (take 10 dates);
  o ← get latestData "1. open"; o ← to_number o;
  h ← get latestData "2. high"; h ← to_number h;
  l ← get latestData "3. low"; l ← to_number l;
  c ← get latestData "4. close"; c ← to_number c;
  v ← get latestData "5. volume"; v ← to_number v;
  pc ← (if (1 <? length dates)%nat
        then c1 ← get (index ts (default "undefined" (dates !! 1))) "4. close";
             c1 ← to_number c1; Some (Some c1)
        else Some None);
  Some ({| date := latestDate; open := o; high := h; low := l; close := c;
           volume := v; prevClose := pc |}, multiDays).

(** What [fetch('/api/stock?symbol=...')] and [res.json()] give:
    [CNetFail] when one of them throws, else [res.ok] and the parsed body
    ([None] when [res.json()] throws). *)
Inductive client_resp :=
| CNetFail
| CResp (ok : bool) (body : option json).

(** The [try]/[catch] of [fetchStock], after the request. *)
Definition fetch_result (sym : string) (resp : client_resp) : list act :=
  let fail := [SetError (JStr "Error fetching stock data"); SetLoading false] in
  match resp with
  | CNetFail | CResp _ None => fail
  | CResp true (Some data) =>
      match get (Val data) "Time Series (Daily)" with
      | None => fail
      | Some tsv =>
          if negb (truthy tsv) then
            [SetError (JStr "No time series data available for this symbol");
             SetLoading false]
          else match build (value_of tsv) with
               | None => fail
               | Some (sd, multiDays) =>
                   [SetStockData (Some sd); SetMultiDayData multiDays;
                    AddToHistory sym; SetLoading false]
               end
      end
  | CResp false (Some data) =>
      match get (Val data) "Error Message" with
      | None => fail
      | Some em =>
          [SetError (if truthy em then value_of em
                     else JStr "Failed to fetch stock data");
           SetLoading false]
      end
  end.

(** [fetchStock], with [symbol] the value seen by the call. *)
Definition fetchStock (sym : string) (resp : client_resp) : list act :=
  [SetError (JStr ""); SetStockData None; SetMultiDayData []] ++
  if String.eqb sym "" then [SetError (JStr "Please enter a stock symbol")]
  else [SetLoading true; Request ("/api/stock?symbol=" ++ sym)]
       ++ fetch_result sym resp.




(** The two [useEffect]s that restore the lists on mount, given the
    browser's [JSON.parse] ([None] when it throws). *)
Section Restore.
Variable JSON_parse : string -> option json.

(** One restoring effect: the state starts as [[]]; a truthy stored
    string is parsed and stored; a throw is caught and stores [[]]. *)
Definition restore_list (item : option string) : json :=
  match item with
  | None => JArr []
  | Some s =>
      if String.eqb s "" then JArr []
      else match JSON_parse s with Some v => v | None => JArr [] end
  end.

(** [(history, favorites)] after both effects, from [localStorage]. *)
Definition restore (storage : string -> option string) : json * json :=
  (restore_list (storage "stockSearchHistory"),
   restore_list (storage "stockFavorites")).
End Restore.

End Dashboard.

(* ===================================================================== *)
(** ** The rest of the [Home] page: CSV export, market clock, URL and
       history-button handlers *)
(* ===================================================================== *)

Module Page.
Import Js Dashboard.

Definition nl_char : ascii := ascii_of_nat 10.
Definition nl : string := String nl_char EmptyString.

(** [Array.prototype.join('\n')] *)
Fixpoint join_nl (l : list string) : string :=
  match l with
  | [] => ""
  | [x] => x
  | x :: r => x ++ nl ++ join_nl r
  end.

(** [exportCSV]: [None] when nothing is downloaded, else the file name
    ([a.download]) and the CSV text put in the blob. [num_to_string] is
    the template-literal conversion [String(x)] of a number. *)
Section Csv.
Variable num_to_string : jsnum -> string.

Definition csv_row (d : Bar.t) : string :=
  Bar.date d ++ "," ++ num_to_string (Bar.open d) ++ "," ++
  num_to_string (Bar.high d) ++ "," ++ num_to_string (Bar.low d) ++ "," ++
  num_to_string (Bar.close d) ++ "," ++ num_to_string (Bar.volume d).

Definition exportCSV (symbol : string) (multiDayData : list Bar.t)
    : option (string * string) :=
  match multiDayData with
  | [] => None
  | _ =>
      let header := "Date,Open,High,Low,Close,Volume" ++ nl in
      let rows := join_nl (map csv_row multiDayData) in
      Some (symbol ++ "_data.csv", header ++ rows)
  end.
End Csv.

(** Splitting a text into its lines (at each '\n'). *)
Fixpoint split_lines_go (s : string) (cur : string) : list string :=
  match s with
  | EmptyString => [cur]
  | String c r =>
      if Ascii.eqb c nl_char then cur :: split_lines_go r ""
      else split_lines_go r (cur ++ String c EmptyString)
  end.

Definition split_lines (s : string) : list string := split_lines_go s "".

Definition has_nl (s : string) : bool :=
  existsb (Ascii.eqb nl_char) (Strings.String.list_ascii_of_string s).

(** [checkMarketStatus], from the New York wall-clock hour, minutes and
    day of the week (Sunday = 0) it reads off [estNow]. *)
Definition checkMarketStatus (hour minutes day : Z) : string :=
  let open := (9 <? hour)%Z || ((hour =? 9)%Z && (30 <=? minutes)%Z) in
  let close := (hour <? 16)%Z in
  if (day =? 0)%Z || (day =? 6)%Z then "Market Closed (Weekend)"
  else if open && close then "Market Open"
  else "Market Closed".

(** The URLs [fetchStock] requests, in order. *)
Definition requests (acts : list act) : list string :=
  flat_map (fun a => match a with Request u => [u] | _ => [] end) acts.

(** [setSymbol(s)] *)
Definition set_symbol (s : string) (st : ui) : ui :=
  Build_ui s (stockData st) (error st) (loading st) (history st)
           (favorites st) (multiDayData st).

(** [String.prototype.toUpperCase] on ASCII letters; other characters are
    kept. *)
Definition upper_char (c : ascii) : ascii :=
  let n := nat_of_ascii c in
  if ((97 <=? n) && (n <=? 122))%nat then ascii_of_nat (n - 32) else c.

Fixpoint toUpperCase (s : string) : string :=
  match s with
  | EmptyString => EmptyString
  | String c r => String (upper_char c) (toUpperCase r)
  end.

(** The mount effect reading [?symbol=]: a truthy parameter is stored
    upper-cased, and 300 ms later the [fetchStock] of the first render
    runs; that closure sees the first render's [symbol], the initial
    [useState('')]. Returns the actions of that call and the final state. *)
Definition mount_url_param (param : option string) (resp : client_resp) (st : ui)
    : list act * ui :=
  match param with
  | Some p =>
      if String.eqb p "" then ([], st)
      else let acts := fetchStock "" resp in
           (acts, run (set_symbol (toUpperCase p) st) acts)
  | None => ([], st)
  end.

(** A history button of the render showing [st]: [setSymbol(h)], then
    100 ms later the [fetchStock] of that same render, which sees
    [symbol st]. *)
Definition history_click (h : string) (resp : client_resp) (st : ui) : list act * ui :=
  let acts := fetchStock (symbol st) resp in
  (acts, run (set_symbol h st) acts).

(** The state of the first render: the [useState] initial values. *)
Definition initial_ui : ui := Build_ui "" None (JStr "") false [] [] [].

(** A bar of [multiDayData], as built from the entry
    [{"1. open": "10", "2. high": "12", "3. low": "9", "4. close": "11",
    "5. volume": "100"}] dated 2024-01-02. *)
Definition sample_bar : Bar.t :=
  {| Bar.date := "2024-01-02"; Bar.open := 10%float; Bar.high := 12%float;
     Bar.low := 9%float; Bar.close := 11%float; Bar.volume := 100%float |}.

End Page.

(* ===================================================================== *)
(** * Statements of the spec *)
(* ===================================================================== *)

Module SpecDefs.
Import Js Gateway Dashboard.

(** The reply to a 2xx upstream payload, as [handler] classifies it. *)
Definition classify_2xx (data : json) : reply :=
  match data with
  | JNull => err 500 (JStr "Failed to fetch data")
  | _ =>
      if truthy (index data "Error Message") then
        err 500 (value_of (index data "Error Message"))
      else if truthy (index data "Note") then
        err 429 (value_of (index data "Note"))
      else {| status := 200; body := data |}
  end.



(** The two-day payload of the spec, as the gateway relays it. *)
Definition two_day_series : list (string * json) :=
  [ ("2024-01-02", JObj [("1. open", JStr "10"); ("2. high", JStr "12");
                         ("3. low", JStr "9"); ("4. close", JStr "11");
                         ("5. volume", JStr "100")]);
    ("2024-01-01", JObj [("1. open", JStr "9"); ("2. high", JStr "10");
                         ("3. low", JStr "8"); ("4. close", JStr "9.5");
                         ("5. volume", JStr "80")])].

Definition two_day_payload : json :=
  JObj [("Time Series (Daily)", JObj two_day_series)].


(** [a] sorts strictly before [b] under [sort()] (code-unit order). *)
Definition date_ltb (a b : string) : bool :=
  String.leb a b && negb (String.eqb a b).

(** How many of the keys [ks] are strictly more recent than [d]. *)
Definition count_newer (ks : list string) (d : string) : nat :=
  length (List.filter (date_ltb d) ks).

(** The close of the entry at date [d], as [+timeSeries[d]['4. close']]. *)
Definition close_of (kvs : list (string * json)) (d : string) : option jsnum :=
  c ← get (assoc d kvs) "4. close"; to_number c.

End SpecDefs.

(* ===================================================================== *)
(** * Properties *)
(* ===================================================================== *)

Import Js Gateway Dashboard SpecDefs.

(** ** List facts *)

Section ListFacts.
Context {A : Type}.

Lemma In_firstn_In (n : nat) (l : list A) (x : A) : In x (firstn n l) -> In x l.
Proof.
  intros H. rewrite <- (firstn_skipn n l). apply in_or_app. by left.
Qed.

Lemma NoDup_firstn_list (n : nat) (l : list A) : List.NoDup l -> List.NoDup (firstn n l).
Proof.
  revert n. induction l as [|x l IH]; intros [|n] H; simpl; [constructor..|].
  inversion H as [|? ? Hx Hl]; subst. constructor.
  - intros Hin. apply Hx. by eapply In_firstn_In.
  - by apply IH.
Qed.

End ListFacts.

Lemma existsb_eqb_In (s : string) (l : list string) :
  existsb (String.eqb s) l = true <-> In s l.
Proof.
  rewrite existsb_exists. split.
  - intros (x & Hx & E). apply String.eqb_eq in E. by subst.
  - intros H. exists s. split; [done|]. apply String.eqb_refl.
Qed.

Lemma not_In_filter_neq (s : string) (l : list string) :
  ~ In s (List.filter (fun f => negb (String.eqb f s)) l).
Proof.
  rewrite filter_In. intros [_ E]. by rewrite String.eqb_refl in E.
Qed.

(** ** C2: search history *)

Lemma addToHistory_length (s : string) (h : list string) :
  length (addToHistory s h) <= 10.
Proof. unfold addToHistory. rewrite length_firstn. lia. Qed.

Lemma addToHistory_NoDup (s : string) (h : list string) :
  List.NoDup h -> List.NoDup (addToHistory s h).
Proof.
  intros Hh. unfold addToHistory. apply NoDup_firstn_list. constructor.
  - apply not_In_filter_neq.
  - by apply List.NoDup_filter.
Qed.

(** Claim C2. Starting from a history with no duplicate and at most 10
    entries, any sequence of [addToHistory] calls keeps the history at
    most 10 long and free of duplicates; every call puts its symbol
    first, once, and keeps only the other symbols after it. *)
Theorem history_append_invariant (h0 syms : list string) :
  List.NoDup h0 -> length h0 <= 10 ->
  let h := fold_left (fun h s => addToHistory s h) syms h0 in
  length h <= 10 /\ List.NoDup h /\
  (forall s prev, head (addToHistory s prev) = Some s /\
     forall x, In x (addToHistory s prev) -> x = s \/ (x <> s /\ In x prev)).
Proof.
  intros Hnd Hlen. simpl. split; [|split].
  - destruct syms as [|s syms] using rev_ind; simpl; [done|].
    rewrite fold_left_app. simpl. apply addToHistory_length.
  - revert h0 Hnd Hlen. induction syms as [|s syms IH]; intros h0 Hnd Hlen; simpl; [done|].
    apply IH; [by apply addToHistory_NoDup | apply addToHistory_length].
  - intros s prev. split; [done|]. intros x Hx.
    unfold addToHistory in Hx. simpl in Hx.
    destruct Hx as [<-|Hx]; [by left|]. right. apply In_firstn_In in Hx.
    apply filter_In in Hx as [Hin E]. split; [|done].
    intros ->. by rewrite String.eqb_refl in E.
Qed.

(** ** C8: favorites *)

(** Claim C8. Toggling the same symbol twice gives back its membership in
    the favorites. *)
Theorem toggleFavorite_twice (favs : list string) (s : string) :
  In s (toggleFavorite s (toggleFavorite s favs)) <-> In s favs.
Proof.
  unfold toggleFavorite at 2.
  destruct (existsb (String.eqb s) favs) eqn:E.
  - apply existsb_eqb_In in E.
    unfold toggleFavorite.
    destruct (existsb (String.eqb s) (List.filter _ favs)) eqn:E2.
    + apply existsb_eqb_In in E2. by apply not_In_filter_neq in E2.
    + split; [done|]. intros _. apply in_or_app. right. by left.
  - assert (Hn : ~ In s favs).
    { intros H. apply existsb_eqb_In in H. congruence. }
    unfold toggleFavorite.
    assert (Hin : existsb (String.eqb s) (favs ++ [s]) = true).
    { apply existsb_eqb_In, in_or_app. right. by left. }
    rewrite Hin. split; [|done]. intros H. by apply not_In_filter_neq in H.
Qed.

(** ** C6 and C9: [fetchStock] with an empty symbol *)

(** Claim C6. With a symbol of length 0, [fetchStock] issues no request
    to the gateway and ends with the user-visible message
    "Please enter a stock symbol". *)
Theorem fetchStock_empty_symbol (sym : string) (resp : client_resp) (st : ui) :
  String.length sym = 0 ->
  (forall url, ~ In (Request url) (fetchStock sym resp)) /\
  error (run st (fetchStock sym resp)) = JStr "Please enter a stock symbol".
Proof.
  destruct sym as [|c sym]; [|discriminate]. intros _. split.
  - intros url H. simpl in H. intuition discriminate.
  - by destruct st.
Qed.

(** Claim C9. Every call of [fetchStock] first clears the error, the
    snapshot and the series, before the symbol is tested; with an empty
    symbol the snapshot and series stay cleared and the loading flag is
    never set. *)
Theorem fetchStock_clears_before_validation :
  (forall sym resp, take 3 (fetchStock sym resp) =
     [SetError (JStr ""); SetStockData None; SetMultiDayData []]) /\
  (forall resp st,
     let st' := run st (fetchStock "" resp) in
     stockData st' = None /\ multiDayData st' = [] /\
     loading st' = loading st /\
     forall b, ~ In (SetLoading b) (fetchStock "" resp)).
Proof.
  split.
  - done.
  - intros resp st. destruct st. simpl. split_and!; [done..|].
    intros b H. intuition discriminate.
Qed.

(** ** C10: restoring the persisted lists *)

(** Claim C10. Each list is restored from its own storage key only; an
    absent key, or a stored string that [JSON.parse] rejects, restores the
    empty list (the exception is caught, no error is shown). This holds for
    any [JSON.parse]. *)
Theorem restore_falls_back_to_empty (JSON_parse : string -> option json)
    (storage : string -> option string) :
  restore JSON_parse storage =
    (restore_list JSON_parse (storage "stockSearchHistory"),
     restore_list JSON_parse (storage "stockFavorites")) /\
  restore_list JSON_parse None = JArr [] /\
  (forall s, JSON_parse s = None -> restore_list JSON_parse (Some s) = JArr []).
Proof.
  split_and!; [done..|]. intros s Hs. simpl.
  destruct (String.eqb s ""); [done|]. by rewrite Hs.
Qed.

(** ** C3: non-2xx upstream answers and transport failures *)

(** Claim C3 (counterexample). A 503 answer with body text
    "Service Unavailable" is not relayed as [{error: "Service Unavailable"}]:
    the gateway prefixes the text. *)
Lemma gateway_non2xx_counterexample :
  fst (handler (QStr "IBM") (Some "demo")
         (fun _ => UResp 503 "Service Unavailable" None))
  <> err 503 (JStr "Service Unavailable").
Proof. vm_compute. congruence. Qed.

(** Claim C3 (amended). A non-2xx upstream answer with status [s] and body
    text [t] is answered with status [s] and
    [{error: "Alpha Vantage error: " ++ t}]; a failed upstream request is
    answered with 500 and [{error: "Failed to fetch data"}]. *)
Theorem gateway_non2xx_error (sym key : string) (s : Z) (t : string)
    (b : option json) :
  sym <> "" -> key <> "" -> Gateway.ok s = false ->
  fst (handler (QStr sym) (Some key) (fun _ => UResp s t b)) =
    err s (JStr ("Alpha Vantage error: " ++ t)) /\
  fst (handler (QStr sym) (Some key) (fun _ => UNetFail)) =
    err 500 (JStr "Failed to fetch data").
Proof.
  intros Hsym Hkey Hs. unfold handler.
  destruct (String.eqb_spec sym ""); [done|].
  destruct (String.eqb_spec key ""); [done|].
  simpl. by rewrite Hs.
Qed.

(** ** C5: 2xx upstream answers *)

(** Claim C5 (counterexample). A 2xx payload whose "Error Message" is the
    empty string is relayed with status 200, and a [null] payload is not
    relayed raw but answered with 500. *)
Lemma gateway_2xx_counterexample :
  status (fst (handler (QStr "IBM") (Some "demo")
     (fun _ => UResp 200 "" (Some (JObj [("Error Message", JStr "")]))))) <> 500%Z /\
  fst (handler (QStr "IBM") (Some "demo") (fun _ => UResp 200 "null" (Some JNull)))
    <> {| status := 200; body := JNull |}.
Proof. vm_compute. split; congruence. Qed.

(** Claim C5 (amended). For a 2xx upstream answer whose body parses as
    JSON: a [null] payload gives 500 with [{error: "Failed to fetch data"}];
    otherwise a truthy "Error Message" gives 500 with [{error: message}],
    else a truthy "Note" gives 429 with [{error: note}], else 200 with the
    payload unchanged. The body [{"Note": "rate limited"}] gives 429 with
    [{"error": "rate limited"}]. *)
Theorem gateway_2xx_classification (sym key : string) (s : Z) (t : string)
    (data : json) :
  sym <> "" -> key <> "" -> Gateway.ok s = true ->
  fst (handler (QStr sym) (Some key) (fun _ => UResp s t (Some data))) =
    classify_2xx data /\
  fst (handler (QStr sym) (Some key)
         (fun _ => UResp s t (Some (JObj [("Note", JStr "rate limited")])))) =
    {| status := 429; body := JObj [("error", JStr "rate limited")] |}.
Proof.
  intros Hsym Hkey Hs. unfold handler.
  destruct (String.eqb_spec sym ""); [done|].
  destruct (String.eqb_spec key ""); [done|].
  simpl. rewrite Hs. simpl. split; [|done].
  unfold classify_2xx. destruct data; done.
Qed.

(** ** C4: the change indicator *)

Lemma str_app_cons (c : ascii) (a b : string) : String c a ++ b = String c (a ++ b).
Proof. reflexivity. Qed.

Lemma str_app_nil_r (a : string) : a ++ "" = a.
Proof. induction a as [|x a IH]; [done|]. rewrite str_app_cons. by rewrite IH. Qed.

Lemma str_app_assoc (a b c : string) : (a ++ b) ++ c = a ++ b ++ c.
Proof.
  induction a as [|x a IH]; [done|]. rewrite !str_app_cons. by rewrite IH.
Qed.










(** ** Dates: the order of [sort()] and the newest-first list *)

Lemma date_ltb_irrefl (a : string) : date_ltb a a = false.
Proof. unfold date_ltb. by rewrite String.eqb_refl, andb_false_r. Qed.

Lemma date_ltb_asym (a b : string) : date_ltb a b = true -> date_ltb b a = false.
Proof.
  unfold date_ltb. intros [Hab Hne]%andb_prop.
  destruct (String.leb b a) eqn:Hba; [|done]. simpl.
  pose proof (String.leb_antisym a b Hab Hba) as ->.
  by rewrite String.eqb_refl in Hne.
Qed.

Lemma StronglySorted_reverse_flip {A} (R : relation A) (l : list A) :
  StronglySorted R l -> StronglySorted (flip R) (reverse l).
Proof.
  induction l as [|x l IH]; intros Hs; [constructor|].
  apply StronglySorted_cons in Hs as [Hx Hl].
  rewrite reverse_cons. apply StronglySorted_app_2.
  - intros x1 x2 Hx1 ->%list_elem_of_singleton.
    rewrite elem_of_reverse in Hx1. rewrite Forall_forall in Hx. unfold flip. by apply Hx.
  - by apply IH.
  - repeat constructor.
Qed.

Lemma StronglySorted_le_strict (l : list string) :
  StronglySorted String.le l -> NoDup l ->
  StronglySorted (fun a b => date_ltb a b = true) l.
Proof.
  induction l as [|x l IH]; intros Hs Hnd; [constructor|].
  apply StronglySorted_cons in Hs as [Hx Hl].
  apply NoDup_cons in Hnd as [Hxl Hnd].
  constructor; [by apply IH|].
  rewrite Forall_forall in Hx |- *. intros y Hy.
  unfold date_ltb. apply andb_true_intro. split.
  - apply Is_true_true. by apply Hx.
  - apply negb_true_iff, String.eqb_neq. intros ->. done.
Qed.

(** [Object.keys(timeSeries).sort().reverse()] lists the keys newest
    first, each once. *)
Lemma sorted_dates_perm (ts : json) : sorted_dates ts ≡ₚ keys ts.
Proof.
  unfold sorted_dates. by rewrite reverse_Permutation, merge_sort_Permutation.
Qed.

Lemma sorted_dates_desc (ts : json) :
  NoDup (keys ts) ->
  StronglySorted (fun a b => date_ltb b a = true) (sorted_dates ts).
Proof.
  intros Hnd. unfold sorted_dates.
  apply (StronglySorted_reverse_flip (fun a b => date_ltb a b = true)).
  apply StronglySorted_le_strict.
  - apply StronglySorted_merge_sort; apply _.
  - by rewrite merge_sort_Permutation.
Qed.

Lemma filter_length_perm {A} (f : A -> bool) (l l' : list A) :
  l ≡ₚ l' -> length (List.filter f l) = length (List.filter f l').
Proof.
  induction 1 as [|x l l' _ IH|x y l|l l' l'' _ IH1 _ IH2]; simpl.
  - done.
  - destruct (f x); simpl; lia.
  - destruct (f x), (f y); simpl; lia.
  - lia.
Qed.

Lemma filter_all_false {A} (f : A -> bool) (l : list A) :
  Forall (fun z => f z = false) l -> List.filter f l = [].
Proof. induction 1 as [|z l Hz _ IH]; simpl; [done|]. by rewrite Hz. Qed.

(** In a newest-first list of distinct dates, the entry at position [i]
    has exactly [i] more recent dates. *)
Lemma count_newer_lookup (l : list string) (i : nat) (x : string) :
  StronglySorted (fun a b => date_ltb b a = true) l ->
  l !! i = Some x -> count_newer l x = i.
Proof.
  unfold count_newer. revert i.
  induction l as [|y l IH]; intros i Hs Hi; [done|].
  apply StronglySorted_cons in Hs as [Hy Hl].
  rewrite Forall_forall in Hy. destruct i as [|i]; simpl in Hi.
  - injection Hi as <-. simpl. rewrite date_ltb_irrefl.
    rewrite filter_all_false; [done|].
    apply Forall_forall. intros z Hz. by apply date_ltb_asym, Hy.
  - simpl. assert (Hx : date_ltb x y = true).
    { apply Hy. by eapply list_elem_of_lookup_2. }
    rewrite Hx. simpl. by rewrite (IH i Hl Hi).
Qed.

Lemma StronglySorted_lookup {A} (R : relation A) (l : list A) (i j : nat) (a b : A) :
  StronglySorted R l -> i < j -> l !! i = Some a -> l !! j = Some b -> R a b.
Proof.
  revert i j. induction l as [|y l IH]; intros i j Hs Hij Hi Hj; [done|].
  apply StronglySorted_cons in Hs as [Hy Hl]. rewrite Forall_forall in Hy.
  destruct i as [|i], j as [|j]; simpl in *; try lia.
  - injection Hi as <-. apply Hy. by eapply list_elem_of_lookup_2.
  - apply (IH i j); [done|lia|done..].
Qed.

Lemma StronglySorted_take {A} (R : relation A) (l : list A) (n : nat) :
  StronglySorted R l -> StronglySorted R (take n l).
Proof.
  intros Hs. rewrite <- (take_drop n l) in Hs.
  by apply StronglySorted_app_1_l in Hs.
Qed.

(** ** What a successful [fetchStock] has computed *)

Lemma get_val (j : json) (k : string) (v : jsv) :
  get (Val j) k = Some v -> v = index j k.
Proof. destruct j; simpl; congruence. Qed.

Lemma fetch_success_inv (st : ui) (sym : string) (resp : client_resp) (sd : StockData) :
  stockData (run st (fetchStock sym resp)) = Some sd ->
  exists data tsv md,
    resp = CResp true (Some data) /\
    get (Val data) "Time Series (Daily)" = Some tsv /\
    build (value_of tsv) = Some (sd, md) /\
    multiDayData (run st (fetchStock sym resp)) = md.
Proof.
  intros H. destruct st. unfold run, fetchStock, fetch_result in *.
  destruct (String.eqb sym ""); [simpl in H; discriminate|].
  destruct resp as [|[] [data|]]; try (simpl in H; discriminate).
  - destruct (get (Val data) "Time Series (Daily)") as [tsv|] eqn:Eg;
      [|simpl in H; discriminate].
    destruct (truthy tsv); [|simpl in H; discriminate].
    destruct (build (value_of tsv)) as [[sd' md]|] eqn:Eb;
      [|simpl in H; discriminate].
    simpl in H. injection H as <-. exists data, tsv, md. by rewrite Eb.
  - destruct (get (Val data) "Error Message"); simpl in H; discriminate.
Qed.

(** Destructs the option computation bound first in [H]. *)
Ltac destruct_bind H :=
  match type of H with
  | context [ mbind _ ?m ] =>
      let E := fresh "E" in
      destruct m eqn:E; simpl in H; [|discriminate]
  end.

Lemma day_of_date (ts : json) (d : string) (b : Bar.t) :
  day_of ts d = Some b -> Bar.date b = d.
Proof.
  intros H. unfold day_of in H. simpl in H.
  do 10 destruct_bind H. by injection H as <-.
Qed.

Lemma map_date_days (ts : json) (ds : list string) (md : list Bar.t) :
  mapM (day_of ts) ds = Some md -> map Bar.date md = ds.
Proof.
  intros H%mapM_Some_1.
  induction H as [|d b ds md Hd _ IH]; [done|].
  simpl. by rewrite (day_of_date _ _ _ Hd), IH.
Qed.

Lemma build_inv (ts : json) (sd : StockData) (md : list Bar.t) :
  build ts = Some (sd, md) ->
  map Bar.date md = take 10 (sorted_dates ts) /\
  (prevClose sd = None <-> ~ (1 < length (sorted_dates ts))) /\
  (1 < length (sorted_dates ts) ->
   exists c1, get (index ts (default "undefined" (sorted_dates ts !! 1))) "4. close"
                = Some c1 /\ prevClose sd = to_number c1).
Proof.
  intros H. unfold build in H. simpl in H.
  do 11 destruct_bind H.
  destruct (1 <? length (sorted_dates ts))%nat eqn:Elt.
  - destruct (get (index ts (default "undefined" (sorted_dates ts !! 1))) "4. close")
      as [c1|] eqn:Ec; cbn in H; [|discriminate].
    destruct (to_number c1) as [x1|] eqn:Ex; cbn in H; [|discriminate].
    injection H as Hsd Hmd. subst sd md.
    apply Nat.ltb_lt in Elt. split_and!.
    + by eapply map_date_days.
    + simpl. split; [discriminate|lia].
    + intros _. eexists. split; [done|by rewrite Ex].
  - cbn in H. injection H as Hsd Hmd. subst sd md.
    apply Nat.ltb_ge in Elt. split_and!.
    + by eapply map_date_days.
    + simpl. split; [lia|done].
    + lia.
Qed.

Lemma sorted_dates_obj_length (kvs : list (string * json)) :
  length (sorted_dates (JObj kvs)) = length kvs.
Proof.
  rewrite (Permutation_length (sorted_dates_perm (JObj kvs))).
  unfold keys. simpl. by rewrite length_map.
Qed.

Lemma elem_of_sorted_dates (kvs : list (string * json)) (d : string) :
  d ∈ sorted_dates (JObj kvs) <-> d ∈ map fst kvs.
Proof. by rewrite (sorted_dates_perm (JObj kvs)). Qed.

(** ** C1: the previous close *)

(** Claim C1. After a successful [fetchStock] on a payload whose time
    series has distinct dates, [prevClose] is [null] exactly when the
    series has fewer than two entries, and otherwise it is the close of the
    date that exactly one other date of the series is more recent than
    (the second date of the descending sort). *)
Theorem prevClose_second_newest (st : ui) (sym : string) (data : json)
    (kvs : list (string * json)) (sd : StockData) :
  index data "Time Series (Daily)" = Val (JObj kvs) ->
  NoDup (map fst kvs) ->
  stockData (run st (fetchStock sym (CResp true (Some data)))) = Some sd ->
  (prevClose sd = None <-> length kvs < 2) /\
  (forall d, d ∈ map fst kvs -> count_newer (map fst kvs) d = 1 ->
     prevClose sd = close_of kvs d).
Proof.
  intros Hts Hnd Hok.
  destruct (fetch_success_inv _ _ _ _ Hok) as (data' & tsv & md & Hr & Hg & Hb & _).
  injection Hr as <-. apply get_val in Hg. rewrite Hts in Hg. subst tsv.
  simpl in Hb. destruct (build_inv _ _ _ Hb) as (_ & Hpc & Hsecond).
  rewrite sorted_dates_obj_length in Hpc, Hsecond. split.
  - rewrite Hpc. lia.
  - intros d Hd Hc.
    apply elem_of_sorted_dates, list_elem_of_lookup_1 in Hd as [i Hi].
    assert (Hci : count_newer (sorted_dates (JObj kvs)) d = i).
    { apply count_newer_lookup; [by apply sorted_dates_desc|done]. }
    assert (Hperm : count_newer (sorted_dates (JObj kvs)) d = count_newer (map fst kvs) d).
    { apply filter_length_perm, (sorted_dates_perm (JObj kvs)). }
    rewrite Hperm, Hc in Hci. subst i.
    pose proof (lookup_lt_Some _ _ _ Hi) as Hlt.
    rewrite sorted_dates_obj_length in Hlt.
    destruct (Hsecond ltac:(lia)) as (c1 & Hc1 & ->).
    rewrite Hi in Hc1. unfold close_of. simpl in Hc1 |- *.
    change (index (JObj kvs) d) with (assoc d kvs) in Hc1.
    by rewrite Hc1.
Qed.

(** ** C7: the recent series *)

(** Claim C7. After a successful [fetchStock] on a payload whose time
    series has [n] distinct dates, [multiDayData] has [min 10 n] bars, its
    dates are dates of the series, strictly newest first, and every date
    of the series left out is older than every date kept. *)
Theorem recentSeries_newest_first (st : ui) (sym : string) (data : json)
    (kvs : list (string * json)) (sd : StockData) :
  index data "Time Series (Daily)" = Val (JObj kvs) ->
  NoDup (map fst kvs) ->
  stockData (run st (fetchStock sym (CResp true (Some data)))) = Some sd ->
  let md := multiDayData (run st (fetchStock sym (CResp true (Some data)))) in
  length md = min 10 (length kvs) /\
  StronglySorted (fun a b => date_ltb b a = true) (map Bar.date md) /\
  (forall d, d ∈ map Bar.date md -> d ∈ map fst kvs) /\
  (forall k d, k ∈ map fst kvs -> k ∉ map Bar.date md -> d ∈ map Bar.date md ->
     date_ltb k d = true).
Proof.
  intros Hts Hnd Hok md.
  destruct (fetch_success_inv _ _ _ _ Hok) as (data' & tsv & md' & Hr & Hg & Hb & Hmd).
  fold md in Hmd. subst md'.
  injection Hr as <-. apply get_val in Hg. rewrite Hts in Hg. subst tsv.
  simpl in Hb. destruct (build_inv _ _ _ Hb) as (Hdates & _ & _).
  pose proof (sorted_dates_desc (JObj kvs) Hnd) as Hdesc.
  split_and!.
  - rewrite <- (length_map Bar.date md), Hdates, length_take.
    by rewrite sorted_dates_obj_length.
  - rewrite Hdates. by apply StronglySorted_take.
  - intros d Hd. rewrite Hdates in Hd.
    apply elem_of_take in Hd as (i & Hi & _).
    apply elem_of_sorted_dates. by eapply list_elem_of_lookup_2.
  - intros k d Hk Hkn Hd. rewrite Hdates in Hkn, Hd.
    apply elem_of_take in Hd as (i & Hi & Hi10).
    apply elem_of_sorted_dates, list_elem_of_lookup_1 in Hk as [j Hj].
    destruct (decide (j < 10)) as [Hj10|Hj10].
    { exfalso. apply Hkn, elem_of_take. by exists j. }
    apply (StronglySorted_lookup _ _ i j d k Hdesc); [lia|done..].
Qed.

(* ===================================================================== *)
(** * Instances of the theorems with hypotheses *)
(* ===================================================================== *)

Lemma history_append_invariant_witness :
  List.NoDup (@nil string) /\ length (@nil string) <= 10 /\
  length (fold_left (fun h s => addToHistory s h) ["AAPL"; "MSFT"; "AAPL"] []) <= 10.
Proof.
  split; [constructor|split; [simpl; lia|]].
  apply (history_append_invariant [] ["AAPL"; "MSFT"; "AAPL"]); [constructor|simpl; lia].
Defined.

Lemma fetchStock_empty_symbol_witness :
  String.length "" = 0 /\
  error (run (Build_ui "" None (JStr "") false [] [] []) (fetchStock "" CNetFail))
    = JStr "Please enter a stock symbol".
Proof.
  split; [reflexivity|].
  apply (fetchStock_empty_symbol "" CNetFail (Build_ui "" None (JStr "") false [] [] [])).
  reflexivity.
Defined.

Lemma gateway_non2xx_error_witness :
  "IBM" <> "" /\ "demo" <> "" /\ Gateway.ok 503 = false /\
  fst (handler (QStr "IBM") (Some "demo")
         (fun _ => UResp 503 "Service Unavailable" None)) =
    err 503 (JStr "Alpha Vantage error: Service Unavailable").
Proof.
  split_and!; [discriminate|discriminate|reflexivity|].
  apply (gateway_non2xx_error "IBM" "demo" 503 "Service Unavailable" None);
    [discriminate|discriminate|reflexivity].
Defined.

Lemma gateway_2xx_classification_witness :
  "IBM" <> "" /\ "demo" <> "" /\ Gateway.ok 200 = true /\
  fst (handler (QStr "IBM") (Some "demo")
         (fun _ => UResp 200 "" (Some (JObj [("Error Message", JStr "Invalid API call")])))) =
    classify_2xx (JObj [("Error Message", JStr "Invalid API call")]).
Proof.
  split_and!; [discriminate|discriminate|reflexivity|].
  apply (gateway_2xx_classification "IBM" "demo" 200 ""
           (JObj [("Error Message", JStr "Invalid API call")]));
    [discriminate|discriminate|reflexivity].
Defined.

(** The snapshot [fetchStock] computes from the two-day payload. *)
Definition two_day_snapshot : StockData :=
  {| date := "2024-01-02"; open := 10%float; high := 12%float; low := 9%float;
     close := 11%float; volume := 100%float; prevClose := Some 9.5%float |}.

Definition empty_ui : ui := Build_ui "AAPL" None (JStr "") false [] [] [].

Lemma two_day_series_NoDup : NoDup (map fst two_day_series).
Proof.
  apply NoDup_ListNoDup. simpl. repeat constructor; simpl; intuition discriminate.
Qed.

Lemma prevClose_second_newest_witness :
  index two_day_payload "Time Series (Daily)" = Val (JObj two_day_series) /\
  NoDup (map fst two_day_series) /\
  stockData (run empty_ui (fetchStock "AAPL" (CResp true (Some two_day_payload))))
    = Some two_day_snapshot /\
  prevClose two_day_snapshot = close_of two_day_series "2024-01-01".
Proof.
  split_and!; [reflexivity|apply two_day_series_NoDup|vm_compute; reflexivity|].
  apply (prevClose_second_newest empty_ui "AAPL" two_day_payload two_day_series
           two_day_snapshot);
    [reflexivity|apply two_day_series_NoDup|vm_compute; reflexivity| |].
  - simpl. rewrite !elem_of_cons. right. by left.
  - vm_compute. reflexivity.
Defined.

Lemma recentSeries_newest_first_witness :
  index two_day_payload "Time Series (Daily)" = Val (JObj two_day_series) /\
  NoDup (map fst two_day_series) /\
  stockData (run empty_ui (fetchStock "AAPL" (CResp true (Some two_day_payload))))
    = Some two_day_snapshot /\
  length (multiDayData (run empty_ui (fetchStock "AAPL" (CResp true (Some two_day_payload)))))
    = 2.
Proof.
  split_and!; [reflexivity|apply two_day_series_NoDup|vm_compute; reflexivity|].
  apply (recentSeries_newest_first empty_ui "AAPL" two_day_payload two_day_series
           two_day_snapshot);
    [reflexivity|apply two_day_series_NoDup|vm_compute; reflexivity].
Defined.

(* ===================================================================== *)
(** * Further properties of the gateway and the page *)
(* ===================================================================== *)

Import Page.

(** ** The gateway *)

Lemma classify_non_ok_body (u : upstream) :
  Gateway.ok (status (classify u)) = false ->
  exists m, body (classify u) = JObj [("error", m)].
Proof.
  unfold classify. destruct u as [|s t [data|]]; [eauto| |].
  - destruct (negb (Gateway.ok s)); [eauto|].
    destruct (get (Val data) "Error Message") as [em|]; [|eauto].
    destruct (truthy em); [eauto|].
    destruct (get (Val data) "Note") as [nt|]; [|eauto].
    destruct (truthy nt); [eauto|]. intros H. vm_compute in H. discriminate H.
  - destruct (negb (Gateway.ok s)); eauto.
Qed.

(** A reply whose status is not 2xx carries [{error: m}]. *)
Lemma handler_non_ok_body (q : query) (key : option string)
    (up : string -> upstream) :
  Gateway.ok (status (fst (handler q key up))) = false ->
  exists m, body (fst (handler q key up)) = JObj [("error", m)].
Proof.
  unfold handler. destruct q as [|sym|l]; [eauto| |eauto].
  destruct (String.eqb sym ""); [eauto|].
  destruct key as [k|]; [|eauto].
  destruct (String.eqb k ""); [eauto|].
  apply classify_non_ok_body.
Qed.

(** Extra. The gateway requests the upstream exactly when the [symbol]
    query parameter is a single non-empty string and the API key is set
    and non-empty, and then requests one URL, built from both. When it
    requests nothing, its reply does not depend on the upstream and has
    status 400 or 500. *)
Theorem handler_request_iff (q : query) (key : option string) (up : string -> upstream) :
  (snd (handler q key up) <> [] <->
     exists sym k, q = QStr sym /\ sym <> "" /\ key = Some k /\ k <> "" /\
       snd (handler q key up) = [upstream_url sym k]) /\
  (snd (handler q key up) = [] ->
     (forall up', handler q key up' = handler q key up) /\
     (status (fst (handler q key up)) = 400%Z \/ status (fst (handler q key up)) = 500%Z)).
Proof.
  unfold handler. destruct q as [|sym|l].
  - split; [split; [done|intros (? & ? & ? & _); discriminate]|]. intros _. split; [done|by left].
  - destruct (String.eqb_spec sym "") as [->|Hsym].
    + split; [split; [done|intros (? & ? & ? & ? & _); congruence]|].
      intros _. split; [done|by left].
    + destruct key as [k|].
      * destruct (String.eqb_spec k "") as [->|Hk].
        -- split; [split; [done|intros (? & ? & ? & ? & ? & ? & _); congruence]|].
           intros _. split; [done|by right].
        -- split; [|done]. split; [|done]. intros _. by exists sym, k.
      * split; [split; [done|intros (? & ? & ? & ? & ? & _); discriminate]|].
        intros _. split; [done|by right].
  - split; [split; [done|intros (? & ? & ? & _); discriminate]|]. intros _. split; [done|by left].
Qed.

(** Closes a goal with a hypothesis [ok (status e) = true] on a concrete
    non-2xx status. *)
Ltac not_ok H := try subst; vm_compute in H; discriminate H.

(** Extra. The gateway never answers with a 2xx status other than 200,
    and a 2xx answer comes from exactly one upstream call, for a
    non-empty symbol and key, that answered 2xx with a body parsed as
    JSON; the reply body is that parsed body, unchanged, with no truthy
    "Error Message" or "Note". *)
Theorem handler_2xx_is_relay (q : query) (key : option string)
    (up : string -> upstream) (r : reply) (urls : list string) :
  handler q key up = (r, urls) -> Gateway.ok (status r) = true ->
  status r = 200%Z /\
  exists sym k s t,
    q = QStr sym /\ sym <> "" /\ key = Some k /\ k <> "" /\
    urls = [upstream_url sym k] /\
    up (upstream_url sym k) = UResp s t (Some (body r)) /\
    Gateway.ok s = true /\
    truthy (index (body r) "Error Message") = false /\
    truthy (index (body r) "Note") = false.
Proof.
  unfold handler. intros H Hok.
  destruct q as [|sym|l]; [injection H as <- _; not_ok Hok| |injection H as <- _; not_ok Hok].
  destruct (String.eqb_spec sym "") as [|Hsym]; [injection H as <- _; not_ok Hok|].
  destruct key as [k|]; [|injection H as <- _; not_ok Hok].
  destruct (String.eqb_spec k "") as [|Hk]; [injection H as <- _; not_ok Hok|].
  injection H as Hr <-. unfold classify in Hr.
  destruct (up (upstream_url sym k)) as [|s t [data|]] eqn:Eup; [not_ok Hok| |].
  - destruct (Gateway.ok s) eqn:Es; cbn [negb] in Hr;
      [|subst r; cbn [status err] in Hok; congruence].
    destruct (get (Val data) "Error Message") as [em|] eqn:Eem; [|not_ok Hok].
    destruct (truthy em) eqn:Tem; [not_ok Hok|].
    destruct (get (Val data) "Note") as [nt|] eqn:Ent; [|not_ok Hok].
    destruct (truthy nt) eqn:Tnt; [not_ok Hok|].
    subst r. cbn [status body]. split; [done|].
    exists sym, k, s, t. split_and!; try done.
    + apply get_val in Eem. by rewrite <- Eem.
    + apply get_val in Ent. by rewrite <- Ent.
  - destruct (Gateway.ok s) eqn:Es; cbn [negb] in Hr; [not_ok Hok|].
    subst r; cbn [status err] in Hok; congruence.
Qed.

(** ** [fetchStock] *)

Lemma requests_app (a b : list act) : requests (a ++ b) = (requests a ++ requests b)%list.
Proof. unfold requests. by rewrite flat_map_app. Qed.

Lemma fetch_result_shape (sym : string) (resp : client_resp) :
  requests (fetch_result sym resp) = [] /\
  last (fetch_result sym resp) = Some (SetLoading false).
Proof. unfold fetch_result. repeat case_match; done. Qed.

Lemma loading_run_last (st : ui) (acts : list act) (b : bool) :
  last acts = Some (SetLoading b) -> loading (run st acts) = b.
Proof.
  intros [l ->]%last_Some. unfold run. rewrite fold_left_app. simpl.
  by destruct (fold_left step l st).
Qed.

Lemma get_of_index (j : json) (k : string) (v : json) :
  index j k = Val v -> get (Val j) k = Some (Val v).
Proof. destruct j; simpl; try congruence. discriminate. Qed.

Lemma get_nonnull (j : json) (k : string) :
  j <> JNull -> get (Val j) k = Some (index j k).
Proof. by destruct j. Qed.

(** Extra. With a non-empty symbol, [fetchStock] sends exactly one request,
    to [/api/stock?symbol=] followed by the symbol, and however the
    request ends the loading flag is reset to false. *)
Theorem fetchStock_one_request_then_idle (sym : string) (resp : client_resp) (st : ui) :
  sym <> "" ->
  requests (fetchStock sym resp) = ["/api/stock?symbol=" ++ sym] /\
  loading (run st (fetchStock sym resp)) = false.
Proof.
  intros Hs. destruct (fetch_result_shape sym resp) as [Hreq Hlast].
  unfold fetchStock. destruct (String.eqb_spec sym "") as [|_]; [done|].
  split.
  - rewrite !requests_app, Hreq. done.
  - apply loading_run_last. rewrite app_assoc. apply last_app_Some.
    by left.
Qed.

(** Extra. When the gateway's reply is not 2xx, the page shows its own
    message "Failed to fetch stock data", never the gateway's error text
    (the page reads "Error Message", the gateway writes "error"); no
    snapshot or series is shown, the history is unchanged and loading
    ends. *)
Theorem gateway_error_shown_generic (q : query) (key : option string)
    (up : string -> upstream) (sym : string) (st : ui) :
  sym <> "" ->
  let r := fst (handler q key up) in
  Gateway.ok (status r) = false ->
  let st' := run st (fetchStock sym (CResp (Gateway.ok (status r)) (Some (body r)))) in
  error st' = JStr "Failed to fetch stock data" /\ stockData st' = None /\
  multiDayData st' = [] /\ history st' = history st /\ loading st' = false.
Proof.
  intros Hs r Hok st'. subst st'.
  destruct (handler_non_ok_body q key up Hok) as [m Hm]. fold r in Hm.
  rewrite Hok, Hm. unfold fetchStock.
  destruct (String.eqb_spec sym "") as [|_]; [done|].
  destruct st. done.
Qed.

(** Extra. After [fetchStock], either no snapshot is shown and the history
    is unchanged, or a snapshot is shown and the symbol has been recorded
    with [addToHistory]. *)
Theorem fetchStock_history_effect (sym : string) (resp : client_resp) (st : ui) :
  let st' := run st (fetchStock sym resp) in
  (stockData st' = None /\ history st' = history st) \/
  (exists sd, stockData st' = Some sd /\ history st' = addToHistory sym (history st)).
Proof.
  destruct st. unfold run, fetchStock, fetch_result.
  repeat case_match; first [left; split; reflexivity | right; eexists; split; reflexivity].
Qed.


Lemma text_number_None (j : json) : to_string_throws j = true -> text_number j = None.
Proof.
  revert j. fix IH 1. intros [| | | |l|kvs] H; simpl in *; try discriminate.
  - destruct l as [|e [|e2 l]]; [discriminate| |].
    + apply IH. simpl in H. by rewrite orb_false_r in H.
    + simpl in H |- *. by rewrite H.
  - by destruct (assoc "toString" kvs).
Qed.

Lemma to_number_throws (v : json) : to_string_throws v = true -> to_number (Val v) = None.
Proof. intros H. destruct v; try discriminate H; by apply text_number_None. Qed.





Lemma build_head (ts : json) (sd : StockData) (md : list Bar.t) :
  build ts = Some (sd, md) ->
  exists b rest, md = b :: rest /\ Bar.date b = date sd /\
    Bar.open b = open sd /\ Bar.high b = high sd /\ Bar.low b = low sd /\
    Bar.close b = close sd /\ Bar.volume b = volume sd.
Proof.
  intros H. unfold build in H. destruct (sorted_dates ts) as [|d0 ds] eqn:Ed; simpl in H.
  - exfalso. pose proof (sorted_dates_perm ts) as P. rewrite Ed in P.
    apply Permutation_nil in P. unfold keys in P. apply map_eq_nil in P.
    unfold index in H. rewrite P in H. simpl in H. discriminate.
  - destruct (day_of ts d0) as [b|] eqn:Eb; simpl in H; [|discriminate].
    destruct (mapM (day_of ts) (take 9 ds)) as [rest|]; simpl in H; [|discriminate].
    do 10 destruct_bind H.
    unfold day_of in Eb. simpl in Eb.
    rewrite E in Eb; simpl in Eb. rewrite E0 in Eb; simpl in Eb.
    rewrite E1 in Eb; simpl in Eb. rewrite E2 in Eb; simpl in Eb.
    rewrite E3 in Eb; simpl in Eb. rewrite E4 in Eb; simpl in Eb.
    rewrite E5 in Eb; simpl in Eb. rewrite E6 in Eb; simpl in Eb.
    rewrite E7 in Eb; simpl in Eb. rewrite E8 in Eb; simpl in Eb.
    injection Eb as <-.
    destruct (1 <? S (length ds))%nat; cbn in H.
    + destruct (get (index ts (default "undefined" (ds !! 0))) "4. close") as [c1|];
        cbn in H; [|discriminate].
      destruct (to_number c1); cbn in H; [|discriminate].
      injection H as <- <-. by eexists _, rest.
    + injection H as <- <-. by eexists _, rest.
Qed.

(** Extra. After a successful [fetchStock], the snapshot shows the newest
    bar of the series: [multiDayData] is not empty and its first bar has
    the snapshot's date, open, high, low, close and volume. *)
Theorem fetchStock_snapshot_is_first_bar (st : ui) (sym : string)
    (resp : client_resp) (sd : StockData) :
  stockData (run st (fetchStock sym resp)) = Some sd ->
  exists b rest, multiDayData (run st (fetchStock sym resp)) = b :: rest /\
    Bar.date b = date sd /\ Bar.open b = open sd /\ Bar.high b = high sd /\
    Bar.low b = low sd /\ Bar.close b = close sd /\ Bar.volume b = volume sd.
Proof.
  intros Hok.
  destruct (fetch_success_inv _ _ _ _ Hok) as (data & tsv & md & _ & _ & Hb & ->).
  by apply (build_head (value_of tsv)).
Qed.

(** Extra. A parsed answer (not [null]) whose "Time Series (Daily)" is
    missing or falsy shows "No time series data available for this
    symbol", with no snapshot, no series, the history unchanged and
    loading ended. *)
Theorem fetchStock_no_series (sym : string) (data : json) (st : ui) :
  sym <> "" -> data <> JNull ->
  truthy (index data "Time Series (Daily)") = false ->
  let st' := run st (fetchStock sym (CResp true (Some data))) in
  error st' = JStr "No time series data available for this symbol" /\
  stockData st' = None /\ multiDayData st' = [] /\
  history st' = history st /\ loading st' = false.
Proof.
  intros Hs Hnn Ht st'. subst st'. unfold fetchStock, fetch_result.
  destruct (String.eqb_spec sym "") as [|_]; [done|].
  rewrite (get_nonnull data _ Hnn). cbv beta iota. rewrite Ht.
  destruct st. done.
Qed.

(** Extra. A time series that is an empty object is truthy but has no
    latest date: reading its fields throws, and the page shows the
    generic "Error fetching stock data" with no snapshot. *)
Theorem fetchStock_empty_series (sym : string) (data : json) (st : ui) :
  sym <> "" -> index data "Time Series (Daily)" = Val (JObj []) ->
  let st' := run st (fetchStock sym (CResp true (Some data))) in
  error st' = JStr "Error fetching stock data" /\ stockData st' = None /\
  loading st' = false.
Proof.
  intros Hs Hidx st'. subst st'. unfold fetchStock, fetch_result.
  destruct (String.eqb_spec sym "") as [|_]; [done|].
  rewrite (get_of_index _ _ _ Hidx). cbv beta iota.
  destruct st. done.
Qed.


(** Extra. When the newest entry of the time series is an object and one
    of the five fields the page reads is an object or array whose
    conversion to a string throws (an own "toString" property, which is
    not callable), the unary [+] throws: the page shows the generic "Error
    fetching stock data" and no snapshot. *)
Theorem fetchStock_throwing_field (sym : string) (data : json)
    (kvs f : list (string * json)) (d k : string) (v : json) (st : ui) :
  sym <> "" -> index data "Time Series (Daily)" = Val (JObj kvs) ->
  head (sorted_dates (JObj kvs)) = Some d -> assoc d kvs = Val (JObj f) ->
  k ∈ ["1. open"; "2. high"; "3. low"; "4. close"; "5. volume"] ->
  assoc k f = Val v -> to_string_throws v = true ->
  let st' := run st (fetchStock sym (CResp true (Some data))) in
  error st' = JStr "Error fetching stock data" /\ stockData st' = None /\
  loading st' = false.
Proof.
  intros Hs Hidx Hd Hf Hk Hv Hthrow st'. subst st'.
  assert (Hday : day_of (JObj kvs) d = None).
  { unfold day_of. change (index (JObj kvs) d) with (assoc d kvs). rewrite Hf.
    simpl. pose proof (to_number_throws v Hthrow) as Hn.
    repeat rewrite elem_of_cons in Hk. rewrite elem_of_nil in Hk.
    assert (Hi : index (JObj f) k = Val v) by exact Hv.
    destruct Hk as [->|[->|[->|[->|[->|[]]]]]]; rewrite Hi, Hn;
      repeat (match goal with |- context [to_number ?t] => destruct (to_number t) end;
              simpl); reflexivity. }
  assert (Hb : build (JObj kvs) = None).
  { unfold build. destruct (sorted_dates (JObj kvs)) as [|d0 ds]; [done|].
    injection Hd as ->. simpl. by rewrite Hday. }
  unfold fetchStock, fetch_result.
  destruct (String.eqb_spec sym "") as [|_]; [done|].
  rewrite (get_of_index _ _ _ Hidx). cbv beta iota. cbn [truthy value_of negb].
  rewrite Hb. destruct st. done.
Qed.

(** ** Favorites and history *)

Lemma filter_all_true {A} (f : A -> bool) (l : list A) :
  (forall x, In x l -> f x = true) -> List.filter f l = l.
Proof.
  induction l as [|x l IH]; intros H; simpl; [done|].
  rewrite (H x (or_introl eq_refl)). f_equal. apply IH. intros y Hy. apply H. by right.
Qed.

(** Extra. Toggling a symbol keeps the favorites free of duplicates. *)
Theorem toggleFavorite_NoDup (s : string) (favs : list string) :
  List.NoDup favs -> List.NoDup (toggleFavorite s favs).
Proof.
  intros Hnd. unfold toggleFavorite.
  destruct (existsb (String.eqb s) favs) eqn:E.
  - by apply List.NoDup_filter.
  - assert (Hn : ~ In s favs).
    { intros H. apply existsb_eqb_In in H. congruence. }
    apply NoDup_ListNoDup. apply NoDup_ListNoDup in Hnd.
    apply NoDup_app. split_and!; [done| |apply NoDup_singleton].
    intros x Hx ->%list_elem_of_singleton. apply Hn. by apply list_elem_of_In.
Qed.

(** Extra. Searching the same symbol twice in a row leaves the history as
    the first search left it. *)
Theorem addToHistory_idempotent (s : string) (h : list string) :
  addToHistory s (addToHistory s h) = addToHistory s h.
Proof.
  unfold addToHistory. simpl. rewrite String.eqb_refl. simpl.
  rewrite filter_all_true.
  - by rewrite take_take.
  - intros x Hx%In_firstn_In. apply filter_In in Hx as [_ Hx]. done.
Qed.

(** ** CSV export *)


Lemma has_nl_cons (c : ascii) (s : string) :
  has_nl (String c s) = Ascii.eqb c nl_char || has_nl s.
Proof. unfold has_nl. simpl. by rewrite Ascii.eqb_sym. Qed.

Lemma split_lines_go_app (x rest cur : string) :
  has_nl x = false ->
  split_lines_go (x ++ rest) cur = split_lines_go rest (cur ++ x).
Proof.
  revert cur. induction x as [|c x IH]; intros cur Hx.
  - by rewrite str_app_nil_r.
  - rewrite has_nl_cons in Hx. apply orb_false_iff in Hx as [Hc Hx].
    rewrite str_app_cons. simpl. rewrite Hc, IH by done.
    by rewrite str_app_assoc.
Qed.

Lemma split_lines_go_nl (rest cur : string) :
  split_lines_go (nl ++ rest) cur = cur :: split_lines_go rest "".
Proof. reflexivity. Qed.

Lemma split_join_nl (rows : list string) :
  rows <> [] -> Forall (fun r => has_nl r = false) rows ->
  split_lines_go (join_nl rows) "" = rows.
Proof.
  induction rows as [|x r IH]; intros Hne Hf; [done|].
  apply Forall_cons in Hf as [Hx Hr]. destruct r as [|y r].
  - pose proof (split_lines_go_app x "" "" Hx) as E.
    rewrite str_app_nil_r in E. change (join_nl [x]) with x. by rewrite E.
  - change (join_nl (x :: y :: r)) with (x ++ nl ++ join_nl (y :: r)).
    rewrite split_lines_go_app, split_lines_go_nl by done.
    by rewrite IH.
Qed.

(** Extra. Exporting a non-empty series downloads [SYMBOL_data.csv] whose
    lines are the header "Date,Open,High,Low,Close,Volume" and then one
    line per bar, in the order of [multiDayData], provided no rendered
    row contains a line break; this holds for any number-to-string
    conversion. *)
Theorem exportCSV_lines (num_to_string : jsnum -> string) (sym : string)
    (md : list Bar.t) :
  md <> [] -> Forall (fun d => has_nl (csv_row num_to_string d) = false) md ->
  exists text,
    exportCSV num_to_string sym md = Some (sym ++ "_data.csv", text) /\
    split_lines text =
      "Date,Open,High,Low,Close,Volume" :: map (csv_row num_to_string) md.
Proof.
  destruct md as [|d md]; intros Hne Hf; [done|].
  eexists. split; [reflexivity|]. unfold split_lines.
  rewrite str_app_assoc, split_lines_go_app, split_lines_go_nl by reflexivity.
  f_equal. apply split_join_nl; [done|].
  clear -Hf. induction Hf; simpl; by constructor.
Qed.

(** ** Market clock *)

(** Extra. For minutes in 0..59, the status is "Market Open" exactly on a
    weekday between 9:30 (inclusive) and 16:00 (exclusive), that is when
    [570 <= 60 * hour + minutes < 960]; on Saturday and Sunday it is
    "Market Closed (Weekend)". *)
Theorem checkMarketStatus_open_iff (hour minutes day : Z) :
  (0 <= minutes < 60)%Z ->
  (checkMarketStatus hour minutes day = "Market Open" <->
     day <> 0%Z /\ day <> 6%Z /\ (570 <= 60 * hour + minutes < 960)%Z) /\
  (day = 0%Z \/ day = 6%Z ->
     checkMarketStatus hour minutes day = "Market Closed (Weekend)").
Proof.
  intros Hm. unfold checkMarketStatus.
  destruct (Z.eqb_spec day 0), (Z.eqb_spec day 6); simpl;
    [split; [split; [discriminate|lia]|done]..|].
  split; [|lia].
  destruct (Z.ltb_spec 9 hour), (Z.eqb_spec hour 9), (Z.leb_spec 30 minutes),
    (Z.ltb_spec hour 16); simpl;
    (split; [intros Hx; first [discriminate Hx | lia] | intros Hx; first [done | lia]]).
Qed.

(** ** Handlers scheduled with [setTimeout] *)

Lemma run_symbol (st : ui) (acts : list act) : symbol (run st acts) = symbol st.
Proof.
  unfold run. revert st. induction acts as [|a acts IH]; intros st; [done|].
  simpl. rewrite IH. by destruct st, a.
Qed.

(** Extra. Opening the page with a non-empty [?symbol=] parameter puts the
    upper-cased symbol in the input, but the fetch scheduled on mount runs
    the first render's [fetchStock], which sees the initial empty symbol:
    no request is sent and "Please enter a stock symbol" is shown. *)
Theorem mount_url_param_stale (p : string) (resp : client_resp) (st : ui) :
  p <> "" ->
  requests (fst (mount_url_param (Some p) resp st)) = [] /\
  symbol (snd (mount_url_param (Some p) resp st)) = toUpperCase p /\
  error (snd (mount_url_param (Some p) resp st)) = JStr "Please enter a stock symbol" /\
  stockData (snd (mount_url_param (Some p) resp st)) = None.
Proof.
  intros Hp. unfold mount_url_param.
  destruct (String.eqb_spec p "") as [|_]; [done|].
  destruct st. split_and!; reflexivity.
Qed.

(** Extra. Clicking a history button shows the clicked symbol in the input,
    but the fetch it schedules is the [fetchStock] of the render that drew
    the button: the one request sent is for the symbol shown before the
    click. *)
Theorem history_click_fetches_old_symbol (h : string) (resp : client_resp) (st : ui) :
  symbol st <> "" ->
  requests (fst (history_click h resp st)) = ["/api/stock?symbol=" ++ symbol st] /\
  symbol (snd (history_click h resp st)) = h.
Proof.
  intros Hs. unfold history_click. cbn [fst snd]. rewrite run_symbol. split; [|done].
  destruct (fetch_result_shape (symbol st) resp) as [Hreq _].
  unfold fetchStock. destruct (String.eqb_spec (symbol st) "") as [|_]; [done|].
  rewrite !requests_app, Hreq. done.
Qed.

(* ===================================================================== *)
(** * Instances of the further properties *)
(* ===================================================================== *)

Lemma handler_2xx_is_relay_witness :
  handler (QStr "IBM") (Some "demo") (fun _ => UResp 200 "OK" (Some two_day_payload)) =
    ({| status := 200; body := two_day_payload |}, [upstream_url "IBM" "demo"]) /\
  Gateway.ok 200 = true /\
  status {| status := 200; body := two_day_payload |} = 200%Z.
Proof.
  split_and!; [reflexivity|reflexivity|].
  apply (proj1 (handler_2xx_is_relay (QStr "IBM") (Some "demo")
                  (fun _ => UResp 200 "OK" (Some two_day_payload))
                  {| status := 200; body := two_day_payload |}
                  [upstream_url "IBM" "demo"] eq_refl eq_refl)).
Defined.

Lemma fetchStock_one_request_then_idle_witness :
  "AAPL" <> "" /\
  requests (fetchStock "AAPL" CNetFail) = ["/api/stock?symbol=AAPL"] /\
  loading (run empty_ui (fetchStock "AAPL" CNetFail)) = false.
Proof.
  split; [discriminate|].
  apply (fetchStock_one_request_then_idle "AAPL" CNetFail empty_ui). discriminate.
Defined.

Lemma gateway_error_shown_generic_witness :
  "IBM" <> "" /\
  Gateway.ok (status (fst (handler (QStr "IBM") (Some "demo")
                             (fun _ => UResp 503 "Service Unavailable" None)))) = false /\
  error (run empty_ui (fetchStock "IBM"
    (CResp false (Some (JObj [("error", JStr "Alpha Vantage error: Service Unavailable")])))))
    = JStr "Failed to fetch stock data".
Proof.
  split_and!; [discriminate|reflexivity|].
  apply (proj1 (gateway_error_shown_generic (QStr "IBM") (Some "demo")
                  (fun _ => UResp 503 "Service Unavailable" None) "IBM" empty_ui
                  ltac:(discriminate) eq_refl)).
Defined.

Lemma fetchStock_snapshot_is_first_bar_witness :
  stockData (run empty_ui (fetchStock "AAPL" (CResp true (Some two_day_payload))))
    = Some two_day_snapshot /\
  exists b rest,
    multiDayData (run empty_ui (fetchStock "AAPL" (CResp true (Some two_day_payload))))
      = b :: rest /\
    Bar.date b = date two_day_snapshot /\ Bar.open b = open two_day_snapshot /\
    Bar.high b = high two_day_snapshot /\ Bar.low b = low two_day_snapshot /\
    Bar.close b = close two_day_snapshot /\ Bar.volume b = volume two_day_snapshot.
Proof.
  split; [vm_compute; reflexivity|].
  apply (fetchStock_snapshot_is_first_bar empty_ui "AAPL" (CResp true (Some two_day_payload))
           two_day_snapshot).
  vm_compute. reflexivity.
Defined.

Lemma fetchStock_no_series_witness :
  "AAPL" <> "" /\ JObj [("Note", JStr "rate limited")] <> JNull /\
  truthy (index (JObj [("Note", JStr "rate limited")]) "Time Series (Daily)") = false /\
  error (run empty_ui (fetchStock "AAPL" (CResp true (Some (JObj [("Note", JStr "rate limited")])))))
    = JStr "No time series data available for this symbol".
Proof.
  split_and!; [discriminate|discriminate|reflexivity|].
  apply (proj1 (fetchStock_no_series "AAPL" (JObj [("Note", JStr "rate limited")]) empty_ui
                  ltac:(discriminate) ltac:(discriminate) eq_refl)).
Defined.

Lemma fetchStock_empty_series_witness :
  "AAPL" <> "" /\
  index (JObj [("Time Series (Daily)", JObj [])]) "Time Series (Daily)" = Val (JObj []) /\
  error (run empty_ui (fetchStock "AAPL"
    (CResp true (Some (JObj [("Time Series (Daily)", JObj [])])))))
    = JStr "Error fetching stock data".
Proof.
  split_and!; [discriminate|reflexivity|].
  apply (proj1 (fetchStock_empty_series "AAPL" (JObj [("Time Series (Daily)", JObj [])])
                  empty_ui ltac:(discriminate) eq_refl)).
Defined.


Lemma fetchStock_throwing_field_witness :
  "AAPL" <> "" /\
  index (JObj [("Time Series (Daily)",
                JObj [("2024-01-02", JObj [("1. open", JObj [("toString", JStr "x")])])])])
        "Time Series (Daily)" =
    Val (JObj [("2024-01-02", JObj [("1. open", JObj [("toString", JStr "x")])])]) /\
  head (sorted_dates (JObj [("2024-01-02", JObj [("1. open", JObj [("toString", JStr "x")])])]))
    = Some "2024-01-02" /\
  assoc "2024-01-02" [("2024-01-02", JObj [("1. open", JObj [("toString", JStr "x")])])] =
    Val (JObj [("1. open", JObj [("toString", JStr "x")])]) /\
  "1. open" ∈ ["1. open"; "2. high"; "3. low"; "4. close"; "5. volume"] /\
  assoc "1. open" [("1. open", JObj [("toString", JStr "x")])] = Val (JObj [("toString", JStr "x")]) /\
  to_string_throws (JObj [("toString", JStr "x")]) = true /\
  error (run empty_ui (fetchStock "AAPL" (CResp true (Some
    (JObj [("Time Series (Daily)",
            JObj [("2024-01-02", JObj [("1. open", JObj [("toString", JStr "x")])])])])))))
    = JStr "Error fetching stock data".
Proof.
  assert (Hk : "1. open" ∈ ["1. open"; "2. high"; "3. low"; "4. close"; "5. volume"]).
  { by left. }
  split_and!; [discriminate|reflexivity|vm_compute; reflexivity|reflexivity|exact Hk|
               reflexivity|reflexivity|].
  apply (proj1 (fetchStock_throwing_field "AAPL"
    (JObj [("Time Series (Daily)",
            JObj [("2024-01-02", JObj [("1. open", JObj [("toString", JStr "x")])])])])
    [("2024-01-02", JObj [("1. open", JObj [("toString", JStr "x")])])]
    [("1. open", JObj [("toString", JStr "x")])] "2024-01-02" "1. open"
    (JObj [("toString", JStr "x")]) empty_ui
    ltac:(discriminate) eq_refl ltac:(vm_compute; reflexivity) eq_refl Hk eq_refl eq_refl)).
Defined.

Lemma toggleFavorite_NoDup_witness :
  List.NoDup ["AAPL"; "MSFT"] /\ List.NoDup (toggleFavorite "TSLA" ["AAPL"; "MSFT"]).
Proof.
  assert (H : List.NoDup ["AAPL"; "MSFT"]).
  { repeat constructor; simpl; intuition discriminate. }
  split; [exact H|]. apply (toggleFavorite_NoDup "TSLA" ["AAPL"; "MSFT"]). exact H.
Defined.

Lemma exportCSV_lines_witness :
  [sample_bar] <> [] /\
  Forall (fun d => has_nl (csv_row Num.number_to_string d) = false) [sample_bar] /\
  exists text,
    exportCSV Num.number_to_string "AAPL" [sample_bar] = Some ("AAPL_data.csv", text) /\
    split_lines text =
      ["Date,Open,High,Low,Close,Volume"; "2024-01-02,10,12,9,11,100"].
Proof.
  assert (H : Forall (fun d => has_nl (csv_row Num.number_to_string d) = false) [sample_bar]).
  { constructor; [vm_compute; reflexivity|constructor]. }
  split_and!; [discriminate|exact H|].
  apply (exportCSV_lines Num.number_to_string "AAPL" [sample_bar]); [discriminate|exact H].
Defined.

Lemma checkMarketStatus_open_iff_witness :
  (0 <= 45 < 60)%Z /\
  (checkMarketStatus 10 45 3 = "Market Open" <->
     3%Z <> 0%Z /\ 3%Z <> 6%Z /\ (570 <= 60 * 10 + 45 < 960)%Z).
Proof.
  split; [lia|].
  apply (proj1 (checkMarketStatus_open_iff 10 45 3 ltac:(lia))).
Defined.

Lemma mount_url_param_stale_witness :
  "aapl" <> "" /\
  requests (fst (mount_url_param (Some "aapl") (CResp true (Some two_day_payload)) initial_ui))
    = [] /\
  symbol (snd (mount_url_param (Some "aapl") (CResp true (Some two_day_payload)) initial_ui))
    = "AAPL".
Proof.
  split; [discriminate|].
  destruct (mount_url_param_stale "aapl" (CResp true (Some two_day_payload)) initial_ui
              ltac:(discriminate)) as (Hreq & Hsym & _).
  split; [exact Hreq|exact Hsym].
Defined.

Lemma history_click_fetches_old_symbol_witness :
  symbol empty_ui <> "" /\
  requests (fst (history_click "MSFT" CNetFail empty_ui)) = ["/api/stock?symbol=AAPL"] /\
  symbol (snd (history_click "MSFT" CNetFail empty_ui)) = "MSFT".
Proof.
  split; [discriminate|].
  apply (history_click_fetches_old_symbol "MSFT" CNetFail empty_ui). discriminate.
Defined.
